(** * server.js: the request pipeline of the agents/companies/customers/orders API

    A shallow embedding of [src/server.js].  The handlers of the file are
    written in a small state-and-exception monad over the part of the world
    they can touch: the database behind the mariadb pool, the response
    object, the validation context that express-validator keeps on the
    request, and a ghost trace of the calls made to the collaborators
    (pool, connection, console).  The application itself is the list of
    layers in the order in which [app.use], [app.get], ... register them,
    and a request is served by walking that list the way the Express router
    does. *)

From stdpp Require Import base option list strings gmap.
From Stdlib Require Import ZArith Ascii.

Open Scope string_scope.

(** ** JavaScript values *)

(** The values that travel through the handlers: parsed request bodies,
    database rows, response bodies.  A number is a decimal literal
    [mantissa * 10 ^ exponent], which covers every number JSON can
    write down. *)
#[warnings="-register-all"]
Inductive value : Type :=
  | VUndefined
  | VNull
  | VBool (b : bool)
  | VNum (mantissa exponent : Z)
  | VStr (s : string)
  | VArr (items : list value)
  | VObj (fields : gmap string value).

(** [typeof v === 'string'] *)
Definition is_string (v : value) : bool :=
  match v with
  | VStr _ => true
  | _ => false
  end.

(** Property read [v[k]] for a key that no prototype defines: only an
    object that owns the key has it. *)
Definition get_field (k : string) (v : value) : value :=
  match v with
  | VObj fields => default VUndefined (fields !! k)
  | _ => VUndefined
  end.

(** ** Errors *)

Inductive js_error : Type :=
  | SqlError (msg : string)           (* rejected by the mariadb driver *)
  | ReferenceError (ident : string)   (* [ident is not defined] *)
  | HeadersSent.                      (* ERR_HTTP_HEADERS_SENT *)

Definition error_stack (e : js_error) : string :=
  match e with
  | SqlError msg => "SqlError: " ++ msg
  | ReferenceError ident => "ReferenceError: " ++ ident ++ " is not defined"
  | HeadersSent => "Error [ERR_HTTP_HEADERS_SENT]: Cannot set headers after they are sent to the client"
  end.

(** ** The response object *)

Inductive payload : Type :=
  | Json (v : value)      (* written by [res.json] *)
  | Text (s : string)     (* written by [res.send] of a string *)
  | Html (s : string).    (* the page of Express's final handler *)

Record response : Type := mkResponse {
  statusCode : nat;
  headers : gmap string string;
  sent : option payload
}.

(** What Express hands to the first layer: status 200, no header, nothing
    written. *)
Definition fresh_response : response :=
  {| statusCode := 200; headers := ∅; sent := None |}.

(** ** The database and its pool *)

Definition row : Type := gmap string value.
Definition database : Type := gmap string (list row).

(** The mariadb collaborator.  [connect] decides whether
    [pool.getConnection()] resolves or rejects; [exec] is what
    [conn.query(sql, values)] does to the database and resolves or rejects
    with.  Nothing is assumed about either. *)
Record driver : Type := mkDriver {
  connect : database -> option js_error;
  exec : string -> list value -> database -> (js_error + list row) * database
}.

(** [mariadb.createPool({..., connectionLimit: 15})] *)
Definition connectionLimit : nat := 15.

(** ** express-validator's record of a failed rule *)

Record validation_error : Type := mkValidationError {
  ve_location : string;
  ve_path : string;
  ve_msg : string;
  ve_value : value
}.

(** ** The ghost trace *)

Inductive event : Type :=
  | EvAcquire (conn : nat)                      (* getConnection resolved *)
  | EvQuery (sql : string) (values : list value)
  | EvRelease (conn : nat)
  | EvCatch (e : js_error)                      (* a [catch] block was entered *)
  | EvConsoleError (e : js_error).              (* console.error('Error:', e) *)

(** ** The state a request runs in *)

Record world : Type := mkWorld {
  w_db : database;
  w_res : response;
  w_errors : list validation_error;   (* the request's validation context *)
  w_trace : list event
}.

Definition set_db (d : database) (w : world) : world :=
  {| w_db := d; w_res := w_res w; w_errors := w_errors w; w_trace := w_trace w |}.
Definition set_res (r : response) (w : world) : world :=
  {| w_db := w_db w; w_res := r; w_errors := w_errors w; w_trace := w_trace w |}.
Definition add_error (e : validation_error) (w : world) : world :=
  {| w_db := w_db w; w_res := w_res w; w_errors := w_errors w ++ [e];
     w_trace := w_trace w |}.
Definition emit (ev : event) (w : world) : world :=
  {| w_db := w_db w; w_res := w_res w; w_errors := w_errors w;
     w_trace := w_trace w ++ [ev] |}.

(** ** The monad of handler code *)

Definition M (A : Type) : Type := world -> (js_error + A) * world.

Definition ret {A} (a : A) : M A := fun w => (inr a, w).
Definition throw {A} (e : js_error) : M A := fun w => (inl e, w).
Definition bind {A B} (m : M A) (k : A -> M B) : M B :=
  fun w =>
    match m w with
    | (inr a, w') => k a w'
    | (inl e, w') => (inl e, w')
    end.

#[global] Instance M_ret : MRet M := @ret.
#[global] Instance M_bind : MBind M := fun A B k m => bind m k.

(** [try { body } catch (err) { handler }] *)
Definition try_catch {A} (body : M A) (handler : js_error -> M A) : M A :=
  fun w =>
    match body w with
    | (inr a, w') => (inr a, w')
    | (inl e, w') => handler e (emit (EvCatch e) w')
    end.

Definition get_world : M world := fun w => (inr w, w).
Definition modify (f : world -> world) : M unit := fun w => (inr tt, f w).

(** ** Requests *)

Inductive method : Type := GET | POST | PATCH | PUT | DELETE.

(** The paths the routes of the file answer to, with the value Express
    binds to [req.params.id].  The id is whatever text stands in the URL
    segment. *)
Inductive path : Type :=
  | Agents
  | AgentsId (id : string)
  | Companies
  | Customers
  | Orders.

Record request : Type := mkRequest {
  req_method : method;
  req_path : path;
  req_body : value        (* [req.body], [VUndefined] when nothing set it *)
}.

Definition url (p : path) : string :=
  match p with
  | Agents => "/agents"
  | AgentsId id => "/agents/" ++ id
  | Companies => "/companies"
  | Customers => "/customers"
  | Orders => "/orders"
  end.

(** The route pattern, as written in the source, that a path matches.
    The paths stand for URLs that Express has already decoded and
    matched: an undecodable URL, which Express refuses on its own before
    any function of server.js is called, is no value of [path]. *)
Definition pattern_of (p : path) : string :=
  match p with
  | Agents => "/agents"
  | AgentsId _ => "/agents/:id"
  | Companies => "/companies"
  | Customers => "/customers"
  | Orders => "/orders"
  end.

Definition method_eqb (a b : method) : bool :=
  match a, b with
  | GET, GET | POST, POST | PATCH, PATCH | PUT, PUT | DELETE, DELETE => true
  | _, _ => false
  end.

Definition method_name (m : method) : string :=
  match m with
  | GET => "GET" | POST => "POST" | PATCH => "PATCH" | PUT => "PUT"
  | DELETE => "DELETE"
  end.

(** ** The collaborators' operations *)

Definition is_acquire (ev : event) : bool :=
  match ev with EvAcquire _ => true | _ => false end.
Definition is_release (ev : event) : bool :=
  match ev with EvRelease _ => true | _ => false end.
Definition is_query (ev : event) : bool :=
  match ev with EvQuery _ _ => true | _ => false end.
Definition is_catch (ev : event) : bool :=
  match ev with EvCatch _ => true | _ => false end.
Definition is_console_error (ev : event) : bool :=
  match ev with EvConsoleError _ => true | _ => false end.

Definition acquired (w : world) : nat := length (filter is_acquire (w_trace w)).
Definition released (w : world) : nat := length (filter is_release (w_trace w)).
Definition queries (w : world) : list event := filter is_query (w_trace w).

(** [await pool.getConnection()]: the connection handed out is numbered by
    the acquisitions that came before it. *)
Definition pool_getConnection (drv : driver) : M nat :=
  fun w =>
    match connect drv (w_db w) with
    | Some e => (inl e, w)
    | None => (inr (acquired w), emit (EvAcquire (acquired w)) w)
    end.

(** [await conn.query(sql)]: no values are passed along with the text. *)
Definition conn_query (drv : driver) (conn : nat) (sql : string) : M (list row) :=
  fun w =>
    let '(r, d) := exec drv sql [] (w_db w) in
    let w' := set_db d (emit (EvQuery sql []) w) in
    match r with
    | inl e => (inl e, w')
    | inr rows => (inr rows, w')
    end.

(** [conn.release()] *)
Definition conn_release (conn : nat) : M unit := modify (emit (EvRelease conn)).

(** [console.error('Error:', err)] *)
Definition console_error (e : js_error) : M unit := modify (emit (EvConsoleError e)).

(** [res.setHeader(k, v)]: Node refuses once the response has gone out. *)
Definition res_setHeader (k v : string) : M unit :=
  fun w =>
    match sent (w_res w) with
    | Some _ => (inl HeadersSent, w)
    | None =>
        (inr tt, set_res {| statusCode := statusCode (w_res w);
                            headers := <[k := v]> (headers (w_res w));
                            sent := None |} w)
    end.

(** [res.status(code)] *)
Definition res_status (code : nat) : M unit :=
  modify (fun w => set_res {| statusCode := code;
                              headers := headers (w_res w);
                              sent := sent (w_res w) |} w).

(** Writing the body: the content type is filled in only when the handler
    left it unset.  (Express also appends a charset parameter to it, which
    is left out here.) *)
Definition write (default_type : string) (p : payload) : M unit :=
  fun w =>
    match sent (w_res w) with
    | Some _ => (inl HeadersSent, w)
    | None =>
        let hs := headers (w_res w) in
        let hs' := match hs !! "Content-Type" with
                   | Some _ => hs
                   | None => <["Content-Type" := default_type]> hs
                   end in
        (inr tt, set_res {| statusCode := statusCode (w_res w);
                            headers := hs';
                            sent := Some p |} w)
    end.

(** [res.json(v)] *)
Definition res_json (v : value) : M unit := write "application/json" (Json v).

(** [res.send(text)] *)
Definition res_send (text : string) : M unit := write "text/html" (Text text).

(** ** Handlers *)

(** What a handler did about the rest of the stack: nothing (it answered,
    or left the request pending), [next()], or [next(err)]. *)
Inductive signal : Type :=
  | Ended
  | Next
  | NextErr (e : js_error).

(** The names bound at the top level of server.js. *)
Definition module_scope : list string :=
  ["express"; "app"; "port"; "body"; "validationResult"; "swaggerJSDoc";
   "swaggerUi"; "cors"; "swaggerDefinition"; "mariadb"; "pool";
   "commonSwaggerDefinition"; "swaggerOptions"; "swaggerSpec";
   "validateRequest"].

(** An identifier used in a function body resolves to a parameter of the
    function or to a top-level binding of the module. *)
Definition in_scope (ident : string) (params : list string) : bool :=
  bool_decide (ident ∈ (params ++ module_scope)%list).

(** The statement [next(err)] in the body of a function with the given
    parameters.  Where [next] is bound it is the third argument Express
    passed; where it is not, evaluating the identifier throws. *)
Definition call_next (params : list string) (err : js_error) : M signal :=
  if in_scope "next" params then mret (NextErr err)
  else throw (ReferenceError "next").

(** The body shared, up to the SQL text, by the four read handlers:
[[
    async (req, res) => {
        try {
            const conn = await pool.getConnection();
            const rows = await conn.query(sql);
            conn.release();
            res.setHeader('Content-Type', 'application/json');
            res.json(rows);
        } catch (err) {
            next(err);
        }
    }
]] *)
Definition read_try (drv : driver) (sql : string) : M signal :=
  conn ← pool_getConnection drv;
  rows ← conn_query drv conn sql;
  conn_release conn;;
  res_setHeader "Content-Type" "application/json";;
  res_json (VArr (VObj <$> rows));;
  mret Ended.

Definition read_handler (drv : driver) (sql : string) (req : request) : M signal :=
  try_catch (read_try drv sql) (call_next ["req"; "res"]).

Definition get_agents (drv : driver) := read_handler drv "SELECT * FROM agents".
Definition get_companies (drv : driver) := read_handler drv "SELECT * FROM company".
Definition get_customers (drv : driver) := read_handler drv "SELECT * FROM customer".
Definition get_orders (drv : driver) := read_handler drv "SELECT * FROM orders".

(** The body shared, up to the message, by the four write handlers:
[[
    async (req, res, next) => {
        try {
            res.send(message);
        } catch (err) {
            next(err);
        }
    }
]] *)
Definition write_try (message : string) : M signal :=
  res_send message;;
  mret Ended.

Definition write_handler (message : string) (req : request) : M signal :=
  try_catch (write_try message) (call_next ["req"; "res"; "next"]).

Definition post_agents := write_handler "Agent created successfully".
Definition patch_agents_id := write_handler "Agent updated successfully".
Definition put_agents_id := write_handler "Agent replaced successfully".
Definition delete_agents_id := write_handler "Agent deleted successfully".

(** [body(field).isString()]: the rule reads [req.body[field]], records a
    failure in the request's validation context, and always moves on. *)
Definition body_isString (field : string) (req : request) : M signal :=
  let v := get_field field (req_body req) in
  (if is_string v then mret tt
   else modify (add_error {| ve_location := "body"; ve_path := field;
                             ve_msg := "Invalid value"; ve_value := v |}));;
  mret Next.

(** One entry of [errors.array()]. *)
Definition error_object (e : validation_error) : value :=
  VObj (<["type" := VStr "field"]>
       (<["value" := ve_value e]>
       (<["msg" := VStr (ve_msg e)]>
       (<["path" := VStr (ve_path e)]>
       (<["location" := VStr (ve_location e)]> ∅))))).

(** [[
    const validateRequest = (req, res, next) => {
        const errors = validationResult(req);
        if (!errors.isEmpty()) {
            return res.status(400).json({ errors: errors.array() });
        }
        next();
    };
]] *)
Definition validateRequest (req : request) : M signal :=
  w ← get_world;
  match w_errors w with
  | [] => mret Next
  | errors =>
      res_status 400;;
      res_json (VObj {["errors" := VArr (error_object <$> errors)]});;
      mret Ended
  end.

(** [[
    app.use((err, req, res, next) => {
        console.error('Error:', err);
        res.status(500).json({ error: 'Internal Server Error' });
    });
]] *)
Definition error_middleware (err : js_error) (req : request) : M signal :=
  console_error err;;
  res_status 500;;
  res_json (VObj {["error" := VStr "Internal Server Error"]});;
  mret Ended.

(** [cors()] with its defaults, on the methods modelled here. *)
Definition cors (req : request) : M signal :=
  res_setHeader "Access-Control-Allow-Origin" "*";;
  mret Next.

(** [swaggerUi.serve] and [swaggerUi.setup(swaggerSpec)]: static assets,
    then the documentation page. *)
Definition swaggerUi_serve (req : request) : M signal := mret Next.
Definition swaggerUi_setup (req : request) : M signal :=
  write "text/html" (Html "swagger-ui");;
  mret Ended.

(** ** The Express router *)

(** A function registered with Express is an error handler when it takes
    four arguments, an ordinary handler otherwise; an ordinary handler is
    a plain function or an [async] one. *)
Inductive kind : Type := Sync | Async.

Inductive middleware : Type :=
  | Handler (k : kind) (fn : request -> M signal)
  | ErrorHandler (fn : js_error -> request -> M signal).

(** [app.use(mount, fns...)] and [app.METHOD(pattern, fns...)] *)
Inductive layer : Type :=
  | Use (mount : string) (fns : list middleware)
  | Route (m : method) (pattern : string) (fns : list middleware).

(** Express 4 calls a handler inside [try]/[catch] and drops the promise
    an [async] handler returns; Express 5 also forwards the rejection of
    that promise to [next]. *)
Inductive express_version : Type := Express4 | Express5.

Record runtime : Type := mkRuntime {
  express : express_version;
  production : bool        (* NODE_ENV === 'production' *)
}.

(** What the router sees of a call to a handler. *)
Definition settle (rt : runtime) (k : kind) (r : js_error + signal) : signal :=
  match r with
  | inr s => s
  | inl e =>
      match k, express rt with
      | Sync, _ => NextErr e
      | Async, Express5 => NextErr e
      | Async, Express4 => Ended
      end
  end.

Definition signal_of (pending : option js_error) : signal :=
  match pending with
  | None => Next
  | Some e => NextErr e
  end.

(** The functions of one layer, in order.  With an error pending only
    error handlers are called; without one only ordinary handlers. *)
Fixpoint run_chain (rt : runtime) (fns : list middleware)
    (pending : option js_error) (req : request) (w : world) : signal * world :=
  match fns with
  | [] => (signal_of pending, w)
  | Handler k fn :: rest =>
      match pending with
      | Some _ => run_chain rt rest pending req w
      | None =>
          let '(r, w') := fn req w in
          match settle rt k r with
          | Ended => (Ended, w')
          | Next => run_chain rt rest None req w'
          | NextErr e => run_chain rt rest (Some e) req w'
          end
      end
  | ErrorHandler fn :: rest =>
      match pending with
      | None => run_chain rt rest None req w
      | Some err =>
          let '(r, w') := fn err req w in
          match settle rt Sync r with
          | Ended => (Ended, w')
          | Next => run_chain rt rest None req w'
          | NextErr e => run_chain rt rest (Some e) req w'
          end
      end
  end.

(** A mounted layer matches the paths under its mount point, whatever is
    pending; a route matches its method and pattern, and never while an
    error is pending. *)
Definition layer_matches (l : layer) (pending : option js_error) (req : request) : bool :=
  match l with
  | Use mount _ => String.eqb mount "/" || String.prefix mount (url (req_path req))
  | Route m pattern _ =>
      match pending with
      | Some _ => false
      | None => method_eqb m (req_method req)
                && String.eqb pattern (pattern_of (req_path req))
      end
  end.

Definition layer_fns (l : layer) : list middleware :=
  match l with
  | Use _ fns => fns
  | Route _ _ fns => fns
  end.

(** What Express does when the stack is exhausted: 404 without a pending
    error, 500 with one, on a page that shows the error's stack outside
    production.  Earlier headers are discarded.  Nothing can be written if
    the response has already gone out.  Express also logs the pending
    error on its own; the trace records the calls server.js makes, so
    that log is not an event of it. *)
Definition final_handler (rt : runtime) (pending : option js_error)
    (req : request) (w : world) : world :=
  match sent (w_res w) with
  | Some _ => w
  | None =>
      let page code msg :=
        set_res {| statusCode := code;
                   headers := <["Content-Type" := "text/html"]>
                              (<["X-Content-Type-Options" := "nosniff"]>
                              (<["Content-Security-Policy" := "default-src 'none'"]> ∅));
                   sent := Some (Html msg) |} w in
      match pending with
      | None =>
          page 404 ("Cannot " ++ method_name (req_method req) ++ " "
                    ++ url (req_path req))
      | Some e =>
          page 500 (if production rt then "Internal Server Error"
                    else error_stack e)
      end
  end.

(** The router: layers are tried in registration order, and a layer that
    was passed is never returned to. *)
Fixpoint route_request (rt : runtime) (stack : list layer)
    (pending : option js_error) (req : request) (w : world) : world :=
  match stack with
  | [] => final_handler rt pending req w
  | l :: rest =>
      if layer_matches l pending req then
        let '(s, w') := run_chain rt (layer_fns l) pending req w in
        match s with
        | Ended => w'
        | Next => route_request rt rest None req w'
        | NextErr e => route_request rt rest (Some e) req w'
        end
      else route_request rt rest pending req w
  end.

(** ** The application *)

(** The layers of server.js, in the order the file registers them. *)
Definition app (drv : driver) : list layer :=
  [ Use "/" [ErrorHandler error_middleware];
    Use "/api-docs" [Handler Sync swaggerUi_serve; Handler Sync swaggerUi_setup];
    Use "/" [Handler Sync cors];
    Route GET "/agents" [Handler Async (get_agents drv)];
    Route POST "/agents"
      [Handler Async (body_isString "AGENT_CODE");
       Handler Async (body_isString "AGENT_NAME");
       Handler Sync validateRequest;
       Handler Async post_agents];
    Route PATCH "/agents/:id"
      [Handler Async (body_isString "AGENT_NAME");
       Handler Sync validateRequest;
       Handler Async patch_agents_id];
    Route PUT "/agents/:id"
      [Handler Async (body_isString "AGENT_NAME");
       Handler Sync validateRequest;
       Handler Async put_agents_id];
    Route DELETE "/agents/:id" [Handler Async delete_agents_id];
    Route GET "/companies" [Handler Async (get_companies drv)];
    Route GET "/customers" [Handler Async (get_customers drv)];
    Route GET "/orders" [Handler Async (get_orders drv)] ].

Definition initial_world (db : database) : world :=
  {| w_db := db; w_res := fresh_response; w_errors := []; w_trace := [] |}.

(** One request, from the moment Express receives it to the moment nothing
    more will happen to it. *)
Definition serve (rt : runtime) (drv : driver) (db : database) (req : request) : world :=
  route_request rt (app drv) None req (initial_world db).

(** ** A concrete database for examples *)

(** A driver that always grants a connection and answers [SELECT * FROM t]
    with the rows of table [t], rejecting when the table is missing. *)
Definition table_of (sql : string) : option string :=
  if String.prefix "SELECT * FROM " sql
  then Some (String.substring 14 (String.length sql - 14) sql)
  else None.

Definition sample_exec (sql : string) (values : list value) (db : database)
    : (js_error + list row) * database :=
  match table_of sql with
  | Some t =>
      match db !! t with
      | Some rows => (inr rows, db)
      | None => (inl (SqlError ("Table 'sample." ++ t ++ "' doesn't exist")), db)
      end
  | None => (inl (SqlError "You have an error in your SQL syntax"), db)
  end.

Definition sample_driver : driver :=
  {| connect := fun _ => None; exec := sample_exec |}.

(** A driver whose server is down: no connection is ever granted. *)
Definition offline_driver : driver :=
  {| connect := fun _ => Some (SqlError "connect ECONNREFUSED 127.0.0.1:3306");
     exec := sample_exec |}.

Definition agent_row (code name : string) : row :=
  <["AGENT_CODE" := VStr code]> (<["AGENT_NAME" := VStr name]> ∅).

Definition sample_db : database :=
  <["agents" := [agent_row "A001" "Subbarao"; agent_row "A002" "Mukesh"]]>
  (<["customer" := []]> (<["orders" := []]> ∅)).

Definition empty_agents_db : database := <["agents" := []]> ∅.

(** POST /agents with a code and no name. *)
Definition post_without_name : request :=
  {| req_method := POST; req_path := Agents;
     req_body := VObj {["AGENT_CODE" := VStr "A009"]} |}.

(** POST /agents with both fields. *)
Definition post_complete : request :=
  {| req_method := POST; req_path := Agents;
     req_body := VObj (<["AGENT_CODE" := VStr "A009"]>
                       {["AGENT_NAME" := VStr "Ravi"]}) |}.

(** PUT /agents/7 as it reaches the route when no parser has read the
    body. *)
Definition put_unparsed : request :=
  {| req_method := PUT; req_path := AgentsId "7"; req_body := VUndefined |}.

Definition dev4 : runtime := {| express := Express4; production := false |}.
Definition dev5 : runtime := {| express := Express5; production := false |}.

(** ** The route table, for stating properties *)

(** What server.js declares for a method and a path: a read route with its
    SQL text, a write route with its field rules and its confirmation
    message, or nothing. *)
Inductive route_class : Type :=
  | ReadRoute (sql : string)
  | WriteRoute (rules : list string) (message : string)
  | NoRoute.

Definition classify (m : method) (p : path) : route_class :=
  match m, p with
  | GET, Agents => ReadRoute "SELECT * FROM agents"
  | GET, Companies => ReadRoute "SELECT * FROM company"
  | GET, Customers => ReadRoute "SELECT * FROM customer"
  | GET, Orders => ReadRoute "SELECT * FROM orders"
  | POST, Agents => WriteRoute ["AGENT_CODE"; "AGENT_NAME"] "Agent created successfully"
  | PATCH, AgentsId _ => WriteRoute ["AGENT_NAME"] "Agent updated successfully"
  | PUT, AgentsId _ => WriteRoute ["AGENT_NAME"] "Agent replaced successfully"
  | DELETE, AgentsId _ => WriteRoute [] "Agent deleted successfully"
  | _, _ => NoRoute
  end.

Definition route_of (req : request) : route_class :=
  classify (req_method req) (req_path req).

Definition is_read (req : request) : bool :=
  match route_of req with ReadRoute _ => true | _ => false end.

Definition is_write (req : request) : bool :=
  match route_of req with WriteRoute _ _ => true | _ => false end.

(** The four read routes and their statements. *)
Definition read_routes : list (path * string) :=
  [ (Agents, "SELECT * FROM agents");
    (Companies, "SELECT * FROM company");
    (Customers, "SELECT * FROM customer");
    (Orders, "SELECT * FROM orders") ].

(** The fields a route requires to be strings. *)
Definition rules_of (req : request) : list string :=
  match route_of req with
  | WriteRoute rules _ => rules
  | _ => []
  end.

(** The record express-validator keeps for a field that broke its rule. *)
Definition violation (body : value) (field : string) : validation_error :=
  {| ve_location := "body"; ve_path := field; ve_msg := "Invalid value";
     ve_value := get_field field body |}.

(** The rules a body breaks, in the order the rules are declared. *)
Definition broken (body : value) (rules : list string) : list string :=
  filter (fun field => is_string (get_field field body) = false) rules.

Definition violations (req : request) : list validation_error :=
  violation (req_body req) <$> broken (req_body req) (rules_of req).

(** The field/message pairs an error list carries. *)
Definition field_messages (errors : list validation_error) : list (string * string) :=
  (fun e => (ve_path e, ve_msg e)) <$> errors.

(** A placeholder [?] in an SQL text stands for a value to be supplied. *)
Fixpoint has_placeholder (sql : string) : bool :=
  match sql with
  | EmptyString => false
  | String c rest => Ascii.eqb c "?"%char || has_placeholder rest
  end.

(** The world in which the route of a request starts: [cors] has added its
    header, nothing else has happened. *)
Definition cors_world (db : database) : world :=
  {| w_db := db;
     w_res := {| statusCode := 200;
                 headers := {["Access-Control-Allow-Origin" := "*"]};
                 sent := None |};
     w_errors := [];
     w_trace := [] |}.

(** What the router does once the functions of the matched route are
    through: no later layer matches, so an unanswered request falls to the
    final handler. *)
Definition finish (rt : runtime) (req : request) (r : signal * world) : world :=
  match r with
  | (Ended, w) => w
  | (Next, w) => final_handler rt None req w
  | (NextErr e, w) => final_handler rt (Some e) req w
  end.

(** The validators of a route, as registered. *)
Definition validators (rules : list string) : list middleware :=
  (fun field => Handler Async (body_isString field)) <$> rules.

(** ** The worlds a request can end in *)

(** The validation context grown by a list of errors. *)
Definition with_errors (errors : list validation_error) (w : world) : world :=
  {| w_db := w_db w; w_res := w_res w; w_errors := w_errors w ++ errors;
     w_trace := w_trace w |}.

(** The world a rejected request ends in. *)
Definition rejected (db : database) (errors : list validation_error) : world :=
  {| w_db := db;
     w_res := {| statusCode := 400;
                 headers := <["Content-Type" := "application/json"]>
                            {["Access-Control-Allow-Origin" := "*"]};
                 sent := Some (Json (VObj {["errors" := VArr (error_object <$> errors)]})) |};
     w_errors := errors;
     w_trace := [] |}.

(** The world a confirmed write ends in. *)
Definition confirmed (db : database) (message : string) : world :=
  {| w_db := db;
     w_res := {| statusCode := 200;
                 headers := <["Content-Type" := "text/html"]>
                            {["Access-Control-Allow-Origin" := "*"]};
                 sent := Some (Text message) |};
     w_errors := [];
     w_trace := [] |}.

(** The world a read ends in when the connection is granted and the query
    resolves. *)
Definition answered (d : database) (sql : string) (rows : list row) : world :=
  {| w_db := d;
     w_res := {| statusCode := 200;
                 headers := <["Content-Type" := "application/json"]>
                            {["Access-Control-Allow-Origin" := "*"]};
                 sent := Some (Json (VArr (VObj <$> rows))) |};
     w_errors := [];
     w_trace := [EvAcquire 0; EvQuery sql []; EvRelease 0] |}.

(** The world in which the [catch] block of a read handler is entered:
    nothing has been written, and the trace stops where the error arose. *)
Definition caught (d : database) (trace : list event) (e : js_error) : world :=
  {| w_db := d;
     w_res := {| statusCode := 200;
                 headers := {["Access-Control-Allow-Origin" := "*"]};
                 sent := None |};
     w_errors := [];
     w_trace := trace ++ [EvCatch e] |}.

(** What becomes of a request whose handler threw out of its [catch]
    block: under Express 4 nothing, under Express 5 the final handler
    answers for the [ReferenceError]. *)
Definition abandoned (rt : runtime) (req : request) (w : world) : world :=
  match express rt with
  | Express4 => w
  | Express5 => final_handler rt (Some (ReferenceError "next")) req w
  end.

(** The message of a write route is fixed by its method. *)
Definition confirmation (m : method) : string :=
  match m with
  | POST => "Agent created successfully"
  | PATCH => "Agent updated successfully"
  | PUT => "Agent replaced successfully"
  | DELETE => "Agent deleted successfully"
  | GET => ""
  end.

(** ** Requests one after another *)

(** The pool and the database outlive a request; the response object and
    the validation context do not.  A run of requests that do not overlap:
    each one meets the collaborator as it behaves at that moment, is
    served on the database the previous one left, and adds its calls to
    the calls made so far. *)
Fixpoint serve_all (rt : runtime) (db : database)
    (reqs : list (driver * request)) : database * list event :=
  match reqs with
  | [] => (db, [])
  | (drv, req) :: rest =>
      let w := serve rt drv db req in
      let '(db', trace) := serve_all rt (w_db w) rest in
      (db', (w_trace w ++ trace)%list)
  end.

(** Whether the request is a read whose connection is granted and whose
    query rejects. *)
Definition query_rejects (drv : driver) (db : database) (req : request) : bool :=
  match route_of req, connect drv db with
  | ReadRoute sql, None =>
      match exec drv sql [] db with
      | (inl _, _) => true
      | (inr _, _) => false
      end
  | _, _ => false
  end.

(** How many requests of a run are such reads. *)
Fixpoint rejected_queries (rt : runtime) (db : database)
    (reqs : list (driver * request)) : nat :=
  match reqs with
  | [] => 0
  | (drv, req) :: rest =>
      (if query_rejects drv db req then 1 else 0)
      + rejected_queries rt (w_db (serve rt drv db req)) rest
  end.

(** Whether the request is a read that fails, at the pool or at the
    query. *)
Definition read_fails (drv : driver) (db : database) (req : request) : bool :=
  match route_of req with
  | ReadRoute sql =>
      match connect drv db with
      | Some _ => true
      | None =>
          match exec drv sql [] db with
          | (inl _, _) => true
          | (inr _, _) => false
          end
      end
  | _ => false
  end.

(** [typeof v === 'object'] for a value that can own keys. *)
Definition is_object (v : value) : bool :=
  match v with
  | VObj _ => true
  | _ => false
  end.

(** The fields listed in a validation context. *)
Definition reported (w : world) : list string := ve_path <$> w_errors w.

(** The body of [post_complete] with one more field. *)
Definition body_with_country : value :=
  VObj (<["COUNTRY" := VStr "India"]>
       (<["AGENT_CODE" := VStr "A009"]>
        {["AGENT_NAME" := VStr "Ravi"]})).

(** GET /agents on the sample database. *)
Definition get_agents_request : request :=
  {| req_method := GET; req_path := Agents; req_body := VUndefined |}.

(** ** Reading a response the way a client does *)

(** One entry of an error list, as a client reads it: the field it names
    under [path] and the message under [msg]. *)
Definition entry_pair (entry : value) : option (string * string) :=
  match get_field "path" entry, get_field "msg" entry with
  | VStr field, VStr message => Some (field, message)
  | _, _ => None
  end.

Fixpoint entry_pairs (entries : list value) : option (list (string * string)) :=
  match entries with
  | [] => Some []
  | entry :: rest =>
      match entry_pair entry, entry_pairs rest with
      | Some fm, Some fms => Some (fm :: fms)
      | _, _ => None
      end
  end.

(** The field/message pairs a response body carries under [errors], in
    the order of the array; nothing when the response is not such a JSON
    body. *)
Definition carried_pairs (body : option payload) : option (list (string * string)) :=
  match body with
  | Some (Json v) =>
      match get_field "errors" v with
      | VArr entries => entry_pairs entries
      | _ => None
      end
  | _ => None
  end.

(** The paths Express hands to the routes: a URL segment bound to [:id] is
    never empty (the URL /agents/ belongs to the pattern /agents), so
    [AgentsId ""] stands for no URL. *)
Definition routable (p : path) : bool :=
  match p with
  | AgentsId id => negb (String.eqb id "")
  | _ => true
  end.

(** The application with any function whatever registered in the place of
    the error middleware. *)
Definition app_with (handler : js_error -> request -> M signal)
    (drv : driver) : list layer :=
  Use "/" [ErrorHandler handler] :: tail (app drv).

(** * Properties *)

(** Closes [NoDup] over a list of distinct constructors or literals. *)
Ltac distinct :=
  repeat (apply NoDup_cons; split;
          [rewrite ?not_elem_of_cons; repeat split;
           first [discriminate | apply not_elem_of_nil] |]);
  apply NoDup_nil_2.

(** ** Scope of [next] *)

Lemma next_unbound_in_read_handlers : in_scope "next" ["req"; "res"] = false.
Proof. by vm_compute. Qed.

Lemma next_bound_in_write_handlers : in_scope "next" ["req"; "res"; "next"] = true.
Proof. by vm_compute. Qed.

(** ** Validation *)

Lemma with_errors_nil w : with_errors [] w = w.
Proof. destruct w. unfold with_errors. simpl. by rewrite app_nil_r. Qed.

Lemma with_errors_cons e errors w :
  with_errors (e :: errors) w = with_errors errors (add_error e w).
Proof. unfold with_errors, add_error. simpl. by rewrite <- app_assoc. Qed.

(** A rule never answers and never fails: it records, and moves on. *)
Lemma body_isString_run field req w :
  body_isString field req w =
    (inr Next,
     if is_string (get_field field (req_body req)) then w
     else add_error (violation (req_body req) field) w).
Proof.
  unfold body_isString.
  destruct (is_string (get_field field (req_body req))); reflexivity.
Qed.

(** Running the validators of a route leaves in the request's validation
    context the broken rules, in declaration order. *)
Lemma run_validators rt rules rest req w :
  run_chain rt (validators rules ++ rest) None req w =
  run_chain rt rest None req
    (with_errors (violation (req_body req) <$> broken (req_body req) rules) w).
Proof.
  revert w. induction rules as [|field rules IH]; intros w.
  - simpl. by rewrite with_errors_nil.
  - simpl. rewrite body_isString_run. simpl.
    unfold broken. rewrite filter_cons.
    destruct (is_string (get_field field (req_body req))) eqn:Hs.
    + rewrite decide_False by discriminate. apply IH.
    + rewrite decide_True by reflexivity.
      rewrite fmap_cons, with_errors_cons. apply IH.
Qed.

Lemma validateRequest_pass req w :
  w_errors w = [] -> validateRequest req w = (inr Next, w).
Proof.
  intros H. unfold validateRequest, get_world, mbind, M_bind, bind.
  by rewrite H.
Qed.

Lemma validateRequest_reject req db e errors :
  validateRequest req (with_errors (e :: errors) (cors_world db)) =
    (inr Ended, rejected db (e :: errors)).
Proof. reflexivity. Qed.

Lemma write_handler_run message req db :
  write_handler message req (cors_world db) = (inr Ended, confirmed db message).
Proof. reflexivity. Qed.

(** A validated write route: the validators, then [validateRequest], then
    the stub. *)
Lemma validated_chain rt rules message req db :
  finish rt req
    (run_chain rt (validators rules ++
                   [Handler Sync validateRequest;
                    Handler Async (write_handler message)])
       None req (cors_world db)) =
  match violation (req_body req) <$> broken (req_body req) rules with
  | [] => confirmed db message
  | errors => rejected db errors
  end.
Proof.
  rewrite run_validators.
  destruct (violation (req_body req) <$> broken (req_body req) rules)
    as [|e errors].
  - rewrite with_errors_nil. reflexivity.
  - cbn [run_chain]. rewrite validateRequest_reject. reflexivity.
Qed.

(** Every request to a write route ends in one of two worlds: confirmed
    when no rule is broken, rejected with the broken rules otherwise. *)
Lemma serve_write rt drv db req rules message :
  route_of req = WriteRoute rules message ->
  serve rt drv db req =
    match violations req with
    | [] => confirmed db message
    | errors => rejected db errors
    end.
Proof.
  destruct req as [m p body]. unfold route_of, violations, rules_of, route_of.
  simpl. intros Hroute. rewrite Hroute.
  destruct m, p; simpl in Hroute; try discriminate;
    injection Hroute as <- <-.
  - (* POST /agents *)
    rewrite <- (validated_chain rt _ _ (mkRequest POST Agents body) db).
    reflexivity.
  - (* PATCH /agents/:id *)
    rewrite <- (validated_chain rt _ _ (mkRequest PATCH (AgentsId id) body) db).
    reflexivity.
  - (* PUT /agents/:id *)
    rewrite <- (validated_chain rt _ _ (mkRequest PUT (AgentsId id) body) db).
    reflexivity.
  - (* DELETE /agents/:id: the stub alone, no rule to break *)
    reflexivity.
Qed.

(** ** Read routes *)

Lemma run_chain_single rt k fn req w :
  run_chain rt [Handler k fn] None req w =
    (settle rt k (fn req w).1, (fn req w).2).
Proof.
  simpl. destruct (fn req w) as [r w']. simpl.
  destruct (settle rt k r); reflexivity.
Qed.

(** The three ways through a read handler.  In both failing ways the
    [catch] block throws in its turn, [next] not being bound there. *)
Lemma read_handler_run drv sql req db :
  read_handler drv sql req (cors_world db) =
    match connect drv db with
    | Some e => (inl (ReferenceError "next"), caught db [] e)
    | None =>
        match exec drv sql [] db with
        | (inr rows, d) => (inr Ended, answered d sql rows)
        | (inl e, d) =>
            (inl (ReferenceError "next"),
             caught d [EvAcquire 0; EvQuery sql []] e)
        end
    end.
Proof.
  unfold read_handler, try_catch, read_try, mbind, M_bind, bind,
    pool_getConnection, conn_query.
  change (w_db (cors_world db)) with db.
  destruct (connect drv db) as [e|]; [reflexivity|].
  change (w_db (emit _ (cors_world db))) with db.
  destruct (exec drv sql [] db) as [[e|rows] d]; reflexivity.
Qed.

Lemma serve_read_route rt drv db req sql :
  route_of req = ReadRoute sql ->
  serve rt drv db req =
    finish rt req
      (run_chain rt [Handler Async (read_handler drv sql)] None req (cors_world db)).
Proof.
  destruct req as [m p body]. unfold route_of. simpl.
  destruct m, p; simpl; try discriminate; intros [= <-]; reflexivity.
Qed.

(** Every request to a read route ends in one of three worlds. *)
Lemma serve_read rt drv db req sql :
  route_of req = ReadRoute sql ->
  serve rt drv db req =
    match connect drv db with
    | Some e => abandoned rt req (caught db [] e)
    | None =>
        match exec drv sql [] db with
        | (inr rows, d) => answered d sql rows
        | (inl e, d) => abandoned rt req (caught d [EvAcquire 0; EvQuery sql []] e)
        end
    end.
Proof.
  intros Hroute. rewrite (serve_read_route _ _ _ _ _ Hroute).
  rewrite run_chain_single, read_handler_run.
  unfold abandoned.
  destruct (connect drv db) as [e|].
  - destruct rt as [[] prod]; reflexivity.
  - destruct (exec drv sql [] db) as [[e|rows] d];
      [destruct rt as [[] prod]|]; reflexivity.
Qed.

(** Requests that match no route fall through to the final handler. *)
Lemma serve_no_route rt drv db req :
  route_of req = NoRoute ->
  serve rt drv db req = final_handler rt None req (cors_world db).
Proof.
  destruct req as [m p body]. unfold route_of. simpl.
  destruct m, p; simpl; try discriminate; reflexivity.
Qed.

(** ** Facts shared by the properties below *)

Lemma final_handler_trace rt pending req w :
  w_trace (final_handler rt pending req w) = w_trace w.
Proof.
  unfold final_handler. destruct (sent (w_res w)); [reflexivity|].
  destruct pending; reflexivity.
Qed.

Lemma final_handler_db rt pending req w :
  w_db (final_handler rt pending req w) = w_db w.
Proof.
  unfold final_handler. destruct (sent (w_res w)); [reflexivity|].
  destruct pending; reflexivity.
Qed.

Lemma abandoned_trace rt req w : w_trace (abandoned rt req w) = w_trace w.
Proof. unfold abandoned. destruct (express rt); [reflexivity|]. apply final_handler_trace. Qed.

(** What the client has in hand after a read handler threw out of its
    [catch] block: nothing under Express 4, the final handler's page under
    Express 5. *)
Lemma abandoned_sent rt req d trace e :
  sent (w_res (abandoned rt req (caught d trace e))) =
    match express rt with
    | Express4 => None
    | Express5 =>
        Some (Html (if production rt then "Internal Server Error"
                    else "ReferenceError: next is not defined"))
    end.
Proof. unfold abandoned. destruct rt as [[] []]; reflexivity. Qed.

Lemma is_write_route req :
  is_write req = true -> exists rules message, route_of req = WriteRoute rules message.
Proof. unfold is_write. destruct (route_of req); try discriminate. eauto. Qed.

(** The three kinds of request, as a case analysis. *)
Lemma route_cases req :
  (exists sql, route_of req = ReadRoute sql) \/
  (exists rules message, route_of req = WriteRoute rules message) \/
  route_of req = NoRoute.
Proof. destruct (route_of req); eauto. Qed.

(** The trace of a write request, and of a request to no route, is empty:
    no collaborator is called. *)
Lemma serve_write_trace rt drv db req :
  is_write req = true -> w_trace (serve rt drv db req) = [].
Proof.
  intros (rules & message & Hroute)%is_write_route.
  rewrite (serve_write _ _ _ _ _ _ Hroute).
  destruct (violations req); reflexivity.
Qed.

Lemma serve_write_db rt drv db req :
  is_write req = true -> w_db (serve rt drv db req) = db.
Proof.
  intros (rules & message & Hroute)%is_write_route.
  rewrite (serve_write _ _ _ _ _ _ Hroute).
  destruct (violations req); reflexivity.
Qed.

(** The error-handling middleware is registered before every route, and
    the router never goes back: whatever the request, it is not run. *)
Lemma error_middleware_never_runs rt drv db req :
  filter is_console_error (w_trace (serve rt drv db req)) = [].
Proof.
  destruct (route_cases req) as [[sql H]|[(rules & message & H)|H]].
  - rewrite (serve_read _ _ _ _ _ H).
    destruct (connect drv db) as [e|].
    + rewrite abandoned_trace. reflexivity.
    + destruct (exec drv sql [] db) as [[e|rows] d];
        [rewrite abandoned_trace|]; reflexivity.
  - rewrite (serve_write _ _ _ _ _ _ H).
    destruct (violations req); reflexivity.
  - rewrite (serve_no_route _ _ _ _ H), final_handler_trace. reflexivity.
Qed.

(** The queries a request executes. *)
Lemma serve_queries rt drv db req :
  queries (serve rt drv db req) =
    match route_of req, connect drv db with
    | ReadRoute sql, None => [EvQuery sql []]
    | _, _ => []
    end.
Proof.
  unfold queries.
  destruct (route_cases req) as [[sql H]|[(rules & message & H)|H]].
  - rewrite (serve_read _ _ _ _ _ H), H.
    destruct (connect drv db) as [e|].
    + rewrite abandoned_trace. reflexivity.
    + destruct (exec drv sql [] db) as [[e|rows] d];
        [rewrite abandoned_trace|]; reflexivity.
  - rewrite (serve_write _ _ _ _ _ _ H), H.
    destruct (violations req); reflexivity.
  - rewrite (serve_no_route _ _ _ _ H), final_handler_trace, H. reflexivity.
Qed.

(** Acquisitions and releases on the three ways through a read route. *)
Lemma read_success_pairs rt drv db req sql rows d :
  route_of req = ReadRoute sql ->
  connect drv db = None ->
  exec drv sql [] db = (inr rows, d) ->
  w_trace (serve rt drv db req) = [EvAcquire 0; EvQuery sql []; EvRelease 0].
Proof.
  intros H Hc Hq. rewrite (serve_read _ _ _ _ _ H), Hc, Hq. reflexivity.
Qed.

Lemma read_query_failure_leaks rt drv db req sql e d :
  route_of req = ReadRoute sql ->
  connect drv db = None ->
  exec drv sql [] db = (inl e, d) ->
  acquired (serve rt drv db req) = 1 /\ released (serve rt drv db req) = 0.
Proof.
  intros H Hc Hq. unfold acquired, released.
  rewrite (serve_read _ _ _ _ _ H), Hc, Hq, abandoned_trace. by split.
Qed.

Lemma read_connect_failure_acquires_nothing rt drv db req sql e :
  route_of req = ReadRoute sql ->
  connect drv db = Some e ->
  acquired (serve rt drv db req) = 0 /\ released (serve rt drv db req) = 0.
Proof.
  intros H Hc. unfold acquired, released.
  rewrite (serve_read _ _ _ _ _ H), Hc, abandoned_trace. by split.
Qed.

(** A failure on a read route never reaches the client as the error
    middleware's answer. *)
Lemma read_failure_not_reported rt drv db req sql :
  route_of req = ReadRoute sql ->
  (is_Some (connect drv db) \/ exists e d, exec drv sql [] db = (inl e, d)) ->
  sent (w_res (serve rt drv db req)) =
    match express rt with
    | Express4 => None
    | Express5 =>
        Some (Html (if production rt then "Internal Server Error"
                    else "ReferenceError: next is not defined"))
    end.
Proof.
  intros H Hfail. rewrite (serve_read _ _ _ _ _ H).
  destruct (connect drv db) as [e|].
  - apply abandoned_sent.
  - destruct Hfail as [[? [=]]|(e & d & ->)]. apply abandoned_sent.
Qed.

(** server.js registers no body parser, so [req.body] reaches the rules as
    Express made it, and every rule is broken. *)
Lemma unparsed_body_breaks_every_rule rules : broken VUndefined rules = rules.
Proof.
  unfold broken. induction rules as [|field rules IH]; [reflexivity|].
  rewrite filter_cons, decide_True by reflexivity.
  f_equal. apply IH.
Qed.

(** ** Validation failures *)

Lemma field_messages_violation body fields :
  field_messages (violation body <$> fields) =
    (fun field => (field, "Invalid value")) <$> fields.
Proof.
  unfold field_messages. induction fields as [|f fields IH]; [reflexivity|].
  simpl. f_equal. apply IH.
Qed.

Lemma broken_nil body rules :
  Forall (fun field => is_string (get_field field body) = true) rules ->
  broken body rules = [].
Proof.
  unfold broken. induction 1 as [|field rules Hs _ IH]; [reflexivity|].
  rewrite filter_cons, decide_False by congruence. apply IH.
Qed.

Lemma rules_only_on_write_routes req field :
  field ∈ rules_of req -> is_write req = true.
Proof.
  unfold rules_of, is_write. destruct (route_of req); trivial;
    intros H; inversion H.
Qed.

Lemma entry_pair_error_object e :
  entry_pair (error_object e) = Some (ve_path e, ve_msg e).
Proof. reflexivity. Qed.

Lemma entry_pairs_error_objects errors :
  entry_pairs (error_object <$> errors) = Some (field_messages errors).
Proof.
  unfold field_messages. induction errors as [|e errors IH]; [reflexivity|].
  rewrite !fmap_cons. cbn [entry_pairs].
  by rewrite entry_pair_error_object, IH.
Qed.

Lemma carried_pairs_rejected db errors :
  carried_pairs (sent (w_res (rejected db errors))) = Some (field_messages errors).
Proof.
  unfold rejected, carried_pairs. cbn [w_res sent].
  change (get_field "errors" (VObj {["errors" := VArr (error_object <$> errors)]}))
    with (VArr (error_object <$> errors)).
  apply entry_pairs_error_objects.
Qed.

(** C3. A request to POST /agents, PATCH /agents/:id or PUT /agents/:id
    whose body breaks a declared rule (the field is missing or is not a
    string) is answered 400, and the body that is sent carries, under
    [errors], one entry per broken rule, in declaration order, each naming
    its field under [path] and the message 'Invalid value' under [msg];
    the broken field is among them; no connection is acquired, no query
    is executed, and the database is as it was. *)
Theorem broken_rule_is_rejected_before_database rt drv db req field :
  field ∈ rules_of req ->
  is_string (get_field field (req_body req)) = false ->
  statusCode (w_res (serve rt drv db req)) = 400 /\
  sent (w_res (serve rt drv db req)) =
    Some (Json (VObj {["errors" := VArr (error_object <$> violations req)]})) /\
  carried_pairs (sent (w_res (serve rt drv db req))) =
    Some ((fun f => (f, "Invalid value")) <$>
          filter (fun f => is_string (get_field f (req_body req)) = false)
                 (rules_of req)) /\
  (exists pairs,
     carried_pairs (sent (w_res (serve rt drv db req))) = Some pairs /\
     (field, "Invalid value") ∈ pairs) /\
  field_messages (violations req) =
    (fun f => (f, "Invalid value")) <$> broken (req_body req) (rules_of req) /\
  (field, "Invalid value") ∈ field_messages (violations req) /\
  acquired (serve rt drv db req) = 0 /\
  queries (serve rt drv db req) = [] /\
  w_db (serve rt drv db req) = db.
Proof.
  intros Hrule Hbroken.
  pose proof (rules_only_on_write_routes _ _ Hrule) as Hwrite.
  assert (Hpairs : field_messages (violations req) =
            (fun f => (f, "Invalid value")) <$> broken (req_body req) (rules_of req))
    by apply field_messages_violation.
  assert (Hin : (field, "Invalid value") ∈ field_messages (violations req)).
  { rewrite Hpairs. apply list_elem_of_fmap. exists field. split; [reflexivity|].
    apply list_elem_of_filter. by split. }
  assert (Hres : w_res (serve rt drv db req) =
            w_res (rejected db (violations req))).
  { destruct (is_write_route _ Hwrite) as (rules & message & Hroute).
    rewrite (serve_write _ _ _ _ _ _ Hroute).
    destruct (violations req) as [|e errors]; [inversion Hin | reflexivity]. }
  assert (Hcarried : carried_pairs (sent (w_res (serve rt drv db req))) =
            Some (field_messages (violations req)))
    by (rewrite Hres; apply carried_pairs_rejected).
  unfold acquired, queries.
  rewrite (serve_write_trace _ _ _ _ Hwrite), (serve_write_db _ _ _ _ Hwrite).
  split; [by rewrite Hres|]. split; [by rewrite Hres|].
  split; [by rewrite Hcarried, Hpairs|].
  split; [by exists (field_messages (violations req))|].
  repeat split; assumption.
Qed.

(** ** Confirmed writes *)

Lemma write_route_message req rules message :
  route_of req = WriteRoute rules message ->
  message = confirmation (req_method req).
Proof.
  destruct req as [m p body]. unfold route_of. simpl.
  destruct m, p; simpl; try discriminate; by intros [= <- <-].
Qed.

(** C5. A request to a write route whose body satisfies every declared
    rule is answered 200 with the route's fixed confirmation message as
    plain text; the body is not a JSON row sequence. *)
Theorem valid_write_is_confirmed rt drv db req :
  is_write req = true ->
  Forall (fun field => is_string (get_field field (req_body req)) = true)
         (rules_of req) ->
  statusCode (w_res (serve rt drv db req)) = 200 /\
  sent (w_res (serve rt drv db req)) = Some (Text (confirmation (req_method req))) /\
  headers (w_res (serve rt drv db req)) !! "Content-Type" = Some "text/html" /\
  (forall rows, sent (w_res (serve rt drv db req)) <> Some (Json (VArr rows))).
Proof.
  intros (rules & message & Hroute)%is_write_route Hvalid.
  rewrite (serve_write _ _ _ _ _ _ Hroute).
  unfold violations. rewrite (broken_nil _ _ Hvalid). simpl.
  rewrite <- (write_route_message _ _ _ Hroute).
  repeat split. intros rows. discriminate.
Qed.

(** ** Write routes and the database *)

(** C8. A request to a write route acquires no connection and leaves the
    database as it was; no collaborator is called at all, and a response
    is produced. *)
Theorem write_routes_touch_nothing rt drv db req :
  is_write req = true ->
  acquired (serve rt drv db req) = 0 /\
  released (serve rt drv db req) = 0 /\
  queries (serve rt drv db req) = [] /\
  w_trace (serve rt drv db req) = [] /\
  w_db (serve rt drv db req) = db /\
  is_Some (sent (w_res (serve rt drv db req))).
Proof.
  intros Hwrite. unfold acquired, released, queries.
  rewrite (serve_write_trace _ _ _ _ Hwrite), (serve_write_db _ _ _ _ Hwrite).
  repeat split.
  destruct (is_write_route _ Hwrite) as (rules & message & Hroute).
  rewrite (serve_write _ _ _ _ _ _ Hroute).
  destruct (violations req); simpl; eauto.
Qed.

(** C9. Whatever the id, the body and the database, DELETE /agents/:id
    runs its [try] block to the end, never enters its [catch] block, and
    answers 200 with 'Agent deleted successfully'; it never answers 500
    or 404. *)
Theorem delete_always_confirms rt drv db id body :
  write_try "Agent deleted successfully" (cors_world db) =
    (inr Ended, serve rt drv db (mkRequest DELETE (AgentsId id) body)) /\
  filter is_catch (w_trace (serve rt drv db (mkRequest DELETE (AgentsId id) body))) = [] /\
  statusCode (w_res (serve rt drv db (mkRequest DELETE (AgentsId id) body))) = 200 /\
  sent (w_res (serve rt drv db (mkRequest DELETE (AgentsId id) body))) =
    Some (Text "Agent deleted successfully") /\
  statusCode (w_res (serve rt drv db (mkRequest DELETE (AgentsId id) body))) <> 500 /\
  statusCode (w_res (serve rt drv db (mkRequest DELETE (AgentsId id) body))) <> 404.
Proof.
  rewrite (serve_write rt drv db (mkRequest DELETE (AgentsId id) body)
             [] "Agent deleted successfully" eq_refl).
  repeat split; discriminate.
Qed.

(** C10. On PATCH, PUT and DELETE /agents/:id the id is never looked at:
    two requests that differ only in the id end in the same world, and so
    get the same response. *)
Theorem id_is_never_inspected rt drv db m body id1 id2 :
  m = PATCH \/ m = PUT \/ m = DELETE ->
  serve rt drv db (mkRequest m (AgentsId id1) body) =
  serve rt drv db (mkRequest m (AgentsId id2) body).
Proof.
  intros [->|[->| ->]].
  - rewrite !(serve_write rt drv db (mkRequest PATCH (AgentsId _) body)
                ["AGENT_NAME"] "Agent updated successfully" eq_refl).
    reflexivity.
  - rewrite !(serve_write rt drv db (mkRequest PUT (AgentsId _) body)
                ["AGENT_NAME"] "Agent replaced successfully" eq_refl).
    reflexivity.
  - rewrite !(serve_write rt drv db (mkRequest DELETE (AgentsId _) body)
                [] "Agent deleted successfully" eq_refl).
    reflexivity.
Qed.

(** ** Read routes: connections, queries, failures *)

(** C1. GET /companies against a database without the [company] table:
    the connection is acquired, the query rejects, and the handler leaves
    through its [catch] block without releasing the connection. *)
Theorem read_query_failure_skips_release rt :
  w_trace (serve rt sample_driver sample_db (mkRequest GET Companies VUndefined)) =
    [EvAcquire 0; EvQuery "SELECT * FROM company" [];
     EvCatch (SqlError "Table 'sample.company' doesn't exist")] /\
  acquired (serve rt sample_driver sample_db (mkRequest GET Companies VUndefined)) = 1 /\
  released (serve rt sample_driver sample_db (mkRequest GET Companies VUndefined)) = 0.
Proof.
  unfold acquired, released.
  rewrite (serve_read rt sample_driver sample_db
             (mkRequest GET Companies VUndefined) "SELECT * FROM company" eq_refl).
  change (connect sample_driver sample_db) with (@None js_error).
  replace (exec sample_driver "SELECT * FROM company" [] sample_db)
    with (@inl js_error (list row) (SqlError "Table 'sample.company' doesn't exist"),
          sample_db) by reflexivity.
  rewrite abandoned_trace. repeat split.
Qed.

(** C2. GET /companies against a database without the [company] table:
    the error middleware is never run, so nothing is logged and its
    500 answer is never written.  Under Express 4 the client gets no
    answer at all; under Express 5 it gets the final handler's page, which
    outside production shows the error thrown by the [catch] block. *)
Theorem read_failure_bypasses_error_middleware rt :
  filter is_console_error
    (w_trace (serve rt sample_driver sample_db (mkRequest GET Companies VUndefined))) = [] /\
  sent (w_res (serve rt sample_driver sample_db (mkRequest GET Companies VUndefined))) <>
    Some (Json (VObj {["error" := VStr "Internal Server Error"]})) /\
  sent (w_res (serve rt sample_driver sample_db (mkRequest GET Companies VUndefined))) =
    match express rt with
    | Express4 => None
    | Express5 =>
        Some (Html (if production rt then "Internal Server Error"
                    else "ReferenceError: next is not defined"))
    end.
Proof.
  assert (Hsent :
    sent (w_res (serve rt sample_driver sample_db (mkRequest GET Companies VUndefined))) =
    match express rt with
    | Express4 => None
    | Express5 =>
        Some (Html (if production rt then "Internal Server Error"
                    else "ReferenceError: next is not defined"))
    end).
  { apply (read_failure_not_reported rt sample_driver sample_db
             (mkRequest GET Companies VUndefined) "SELECT * FROM company" eq_refl).
    right. eexists _, _. reflexivity. }
  split; [apply error_middleware_never_runs|].
  split; [|exact Hsent].
  rewrite Hsent. destruct (express rt); discriminate.
Qed.

(** C4, as stated, fails: with the database server down, GET /agents
    executes no query at all. *)
Lemma read_without_connection_runs_no_query :
  is_read (mkRequest GET Agents VUndefined) = true /\
  queries (serve dev4 offline_driver sample_db (mkRequest GET Agents VUndefined)) = [] /\
  length (queries (serve dev4 offline_driver sample_db (mkRequest GET Agents VUndefined))) <> 1.
Proof. rewrite serve_queries. by repeat split. Qed.

(** C4, amended.  Every request executes at most one query.  A read route
    executes its own SELECT, once and without values, when the pool grants
    a connection, and nothing when it does not; a write route executes
    nothing.  The four read routes and their four statements correspond
    one to one, and no statement has a placeholder. *)
Theorem one_query_per_route rt drv db req :
  length (queries (serve rt drv db req)) <= 1 /\
  queries (serve rt drv db req) =
    match route_of req, connect drv db with
    | ReadRoute sql, None => [EvQuery sql []]
    | _, _ => []
    end /\
  (if is_write req then queries (serve rt drv db req) = [] else True) /\
  NoDup read_routes.*1 /\
  NoDup read_routes.*2 /\
  Forall (fun route => classify GET route.1 = ReadRoute route.2 /\
                       has_placeholder route.2 = false) read_routes /\
  (forall m p, match classify m p with
               | ReadRoute sql => m = GET /\ (p, sql) ∈ read_routes
               | _ => True
               end).
Proof.
  rewrite serve_queries. repeat split.
  - destruct (route_of req), (connect drv db); simpl; lia.
  - unfold is_write. by destruct (route_of req).
  - simpl. distinct.
  - simpl. distinct.
  - unfold read_routes. repeat constructor.
  - intros m p. destruct m, p; simpl; trivial; split; trivial;
      unfold read_routes; rewrite !elem_of_cons; tauto.
Qed.

(** C6. GET /agents, when the pool grants a connection and the [agents]
    table has no row, is answered 200 with a JSON content type and the
    empty array. *)
Theorem empty_agents_table_is_empty_array rt drv db body d :
  connect drv db = None ->
  exec drv "SELECT * FROM agents" [] db = (inr [], d) ->
  statusCode (w_res (serve rt drv db (mkRequest GET Agents body))) = 200 /\
  headers (w_res (serve rt drv db (mkRequest GET Agents body))) !! "Content-Type" =
    Some "application/json" /\
  sent (w_res (serve rt drv db (mkRequest GET Agents body))) = Some (Json (VArr [])).
Proof.
  intros Hc Hq.
  rewrite (serve_read rt drv db (mkRequest GET Agents body)
             "SELECT * FROM agents" eq_refl), Hc, Hq.
  by repeat split.
Qed.

(** ** Instances at concrete requests *)

(** C3 at POST /agents with a code and no name: 400, the body carries
    one pair for AGENT_NAME, no connection, no query. *)
Lemma broken_rule_is_rejected_before_database_witness :
  "AGENT_NAME" ∈ rules_of post_without_name /\
  is_string (get_field "AGENT_NAME" (req_body post_without_name)) = false /\
  statusCode (w_res (serve dev4 sample_driver sample_db post_without_name)) = 400 /\
  carried_pairs (sent (w_res (serve dev4 sample_driver sample_db post_without_name))) =
    Some [("AGENT_NAME", "Invalid value")] /\
  field_messages (violations post_without_name) = [("AGENT_NAME", "Invalid value")] /\
  acquired (serve dev4 sample_driver sample_db post_without_name) = 0 /\
  queries (serve dev4 sample_driver sample_db post_without_name) = [].
Proof.
  assert (Hrule : "AGENT_NAME" ∈ rules_of post_without_name)
    by (right; left).
  assert (Hbroken :
    is_string (get_field "AGENT_NAME" (req_body post_without_name)) = false)
    by reflexivity.
  destruct (broken_rule_is_rejected_before_database
              dev4 sample_driver sample_db post_without_name "AGENT_NAME"
              Hrule Hbroken)
    as (Hstatus & _ & Hcarried & _ & Hpairs & _ & Hacq & Hq & _).
  split; [exact Hrule|]. split; [exact Hbroken|]. split; [exact Hstatus|].
  split; [rewrite Hcarried; reflexivity|].
  split; [rewrite Hpairs; reflexivity|]. split; assumption.
Defined.

(** C5 at POST /agents with both fields: 200 and the creation message. *)
Lemma valid_write_is_confirmed_witness :
  is_write post_complete = true /\
  Forall (fun field => is_string (get_field field (req_body post_complete)) = true)
         (rules_of post_complete) /\
  statusCode (w_res (serve dev4 sample_driver sample_db post_complete)) = 200 /\
  sent (w_res (serve dev4 sample_driver sample_db post_complete)) =
    Some (Text "Agent created successfully").
Proof.
  assert (Hwrite : is_write post_complete = true) by reflexivity.
  assert (Hvalid :
    Forall (fun field => is_string (get_field field (req_body post_complete)) = true)
           (rules_of post_complete))
    by (repeat constructor).
  destruct (valid_write_is_confirmed dev4 sample_driver sample_db post_complete
              Hwrite Hvalid) as (Hstatus & Hsent & _).
  repeat split; assumption.
Defined.

(** C8 at PUT /agents/7 with an unparsed body: rejected, and still no
    connection and the same database. *)
Lemma write_routes_touch_nothing_witness :
  is_write put_unparsed = true /\
  acquired (serve dev4 sample_driver sample_db put_unparsed) = 0 /\
  w_db (serve dev4 sample_driver sample_db put_unparsed) = sample_db.
Proof.
  assert (Hwrite : is_write put_unparsed = true) by reflexivity.
  destruct (write_routes_touch_nothing dev4 sample_driver sample_db put_unparsed
              Hwrite) as (Hacq & _ & _ & _ & Hdb & _).
  repeat split; assumption.
Defined.

(** C10 at PATCH /agents/42 and PATCH /agents/forty-two. *)
Lemma id_is_never_inspected_witness :
  (PATCH = PATCH \/ PATCH = PUT \/ PATCH = DELETE) /\
  serve dev4 sample_driver sample_db (mkRequest PATCH (AgentsId "42") VUndefined) =
  serve dev4 sample_driver sample_db (mkRequest PATCH (AgentsId "forty-two") VUndefined).
Proof.
  assert (Hm : PATCH = PATCH \/ PATCH = PUT \/ PATCH = DELETE)
    by (left; reflexivity).
  split; [exact Hm|].
  exact (id_is_never_inspected dev4 sample_driver sample_db PATCH VUndefined
           "42" "forty-two" Hm).
Defined.

(** C6 at a database whose [agents] table is empty. *)
Lemma empty_agents_table_is_empty_array_witness :
  connect sample_driver empty_agents_db = None /\
  exec sample_driver "SELECT * FROM agents" [] empty_agents_db =
    (inr [], empty_agents_db) /\
  statusCode (w_res (serve dev4 sample_driver empty_agents_db
                       (mkRequest GET Agents VUndefined))) = 200 /\
  sent (w_res (serve dev4 sample_driver empty_agents_db
                 (mkRequest GET Agents VUndefined))) = Some (Json (VArr [])).
Proof.
  assert (Hc : connect sample_driver empty_agents_db = None) by reflexivity.
  assert (Hq : exec sample_driver "SELECT * FROM agents" [] empty_agents_db =
                 (inr [], empty_agents_db)) by reflexivity.
  destruct (empty_agents_table_is_empty_array dev4 sample_driver empty_agents_db
              VUndefined empty_agents_db Hc Hq) as (Hstatus & _ & Hsent).
  repeat split; assumption.
Defined.

(** * Further properties of the pipeline *)

(** ** What the final handler and an abandoned request leave alone *)

Lemma final_handler_errors rt pending req w :
  w_errors (final_handler rt pending req w) = w_errors w.
Proof.
  unfold final_handler. destruct (sent (w_res w)); [reflexivity|].
  destruct pending; reflexivity.
Qed.

Lemma abandoned_world_db rt req w : w_db (abandoned rt req w) = w_db w.
Proof.
  unfold abandoned. destruct (express rt); [reflexivity|].
  apply final_handler_db.
Qed.

Lemma abandoned_errors rt req w : w_errors (abandoned rt req w) = w_errors w.
Proof.
  unfold abandoned. destruct (express rt); [reflexivity|].
  apply final_handler_errors.
Qed.

(** The final handler reads the method and the path of the request, not
    its body. *)
Lemma final_handler_body rt pending m p b1 b2 w :
  final_handler rt pending (mkRequest m p b1) w =
  final_handler rt pending (mkRequest m p b2) w.
Proof. reflexivity. Qed.

Lemma abandoned_body rt m p b1 b2 w :
  abandoned rt (mkRequest m p b1) w = abandoned rt (mkRequest m p b2) w.
Proof. reflexivity. Qed.

(** ** Successful and refused reads *)

(** X1. On each of the four read routes, when the pool grants a connection
    and the query resolves, the answer is 200 with a JSON content type and
    the rows exactly as the driver returned them, in the same order; the
    calls made are one acquisition, the route's query, one release, in
    that order and on the same connection; the database is the one the
    driver left. *)
Theorem read_success_returns_rows rt drv db req sql rows d :
  route_of req = ReadRoute sql ->
  connect drv db = None ->
  exec drv sql [] db = (inr rows, d) ->
  statusCode (w_res (serve rt drv db req)) = 200 /\
  headers (w_res (serve rt drv db req)) !! "Content-Type" = Some "application/json" /\
  sent (w_res (serve rt drv db req)) = Some (Json (VArr (VObj <$> rows))) /\
  w_trace (serve rt drv db req) = [EvAcquire 0; EvQuery sql []; EvRelease 0] /\
  acquired (serve rt drv db req) = 1 /\
  released (serve rt drv db req) = 1 /\
  w_db (serve rt drv db req) = d.
Proof.
  intros Hroute Hc Hq. unfold acquired, released.
  rewrite (serve_read _ _ _ _ _ Hroute), Hc, Hq.
  by repeat split.
Qed.

(** X2. On a read route, when the pool refuses a connection, nothing is
    acquired, queried or released, the only thing that happens is that the
    [catch] block is entered with the pool's error, and the database is
    untouched. *)
Theorem read_refused_connection_touches_nothing rt drv db req sql e :
  route_of req = ReadRoute sql ->
  connect drv db = Some e ->
  w_trace (serve rt drv db req) = [EvCatch e] /\
  acquired (serve rt drv db req) = 0 /\
  released (serve rt drv db req) = 0 /\
  queries (serve rt drv db req) = [] /\
  w_db (serve rt drv db req) = db.
Proof.
  intros Hroute Hc. unfold acquired, released, queries.
  rewrite (serve_read _ _ _ _ _ Hroute), Hc.
  rewrite abandoned_trace, abandoned_world_db. by repeat split.
Qed.

(** ** Connections over a run of requests *)

Lemma serve_balance rt drv db req :
  acquired (serve rt drv db req) =
  released (serve rt drv db req) + (if query_rejects drv db req then 1 else 0).
Proof.
  unfold acquired, released, query_rejects.
  destruct (route_cases req) as [[sql H]|[(rules & message & H)|H]].
  - rewrite (serve_read _ _ _ _ _ H), H.
    destruct (connect drv db) as [e|].
    + rewrite abandoned_trace. reflexivity.
    + destruct (exec drv sql [] db) as [[e|rows] d];
        [rewrite abandoned_trace|]; reflexivity.
  - rewrite (serve_write _ _ _ _ _ _ H), H.
    destruct (violations req); reflexivity.
  - rewrite (serve_no_route _ _ _ _ H), final_handler_trace, H. reflexivity.
Qed.

(** X3. After any run of requests, of any kinds and outcomes and however
    the pool and the database behave at each of them, the connections
    acquired and not released are exactly as many as the reads whose query
    rejected: each such read keeps its connection for ever, and nothing
    else does. *)
Theorem unreleased_connections_count_rejected_queries rt db reqs :
  length (filter is_acquire (serve_all rt db reqs).2) =
  length (filter is_release (serve_all rt db reqs).2)
  + rejected_queries rt db reqs.
Proof.
  revert db. induction reqs as [|[drv req] rest IH]; intros db; [reflexivity|].
  simpl. specialize (IH (w_db (serve rt drv db req))).
  destruct (serve_all rt (w_db (serve rt drv db req)) rest) as [db' trace].
  simpl in *. rewrite !filter_app, !length_app, IH.
  pose proof (serve_balance rt drv db req) as Hb.
  unfold acquired, released in Hb. rewrite Hb. lia.
Qed.

(** ** The error middleware *)

(** X4. What the error middleware writes does not depend on the error it
    is given: for any two errors, on any response, it leaves the same
    status, headers and body, and it never calls [next].  Only the console
    sees the error. *)
Theorem error_middleware_hides_the_error e1 e2 req w :
  w_res (error_middleware e1 req w).2 = w_res (error_middleware e2 req w).2 /\
  statusCode (w_res (error_middleware e1 req w).2) = 500 /\
  w_trace (error_middleware e1 req w).2 = (w_trace w ++ [EvConsoleError e1])%list /\
  (error_middleware e1 req w).1 =
    match sent (w_res w) with
    | None => inr Ended
    | Some _ => inl HeadersSent
    end /\
  sent (w_res (error_middleware e1 req w).2) =
    match sent (w_res w) with
    | None => Some (Json (VObj {["error" := VStr "Internal Server Error"]}))
    | Some p => Some p
    end.
Proof.
  unfold error_middleware, console_error, res_status, res_json, write,
    modify, mbind, M_bind, bind. simpl.
  destruct (sent (w_res w)) as [p|]; simpl; by repeat split.
Qed.

Lemma errors_key_is_not_error_key (v1 v2 : value) :
  VObj {["errors" := v1]} <> VObj {["error" := v2]}.
Proof.
  (* the two singleton maps differ already in their shape *)
  intros [=].
Qed.

Lemma app_is_app_with drv : app drv = app_with error_middleware drv.
Proof. reflexivity. Qed.

(** X5. The error middleware of lines 51-54 is never run: it is
    registered before every route and the router never goes back to a
    layer it has passed.  Whatever function stands in its place, every
    request, with every driver, database and Express version, ends in the
    same world; and the middleware's own answer is never what the client
    gets. *)
Theorem no_request_reaches_the_error_middleware rt drv db req handler :
  route_request rt (app_with handler drv) None req (initial_world db) =
    serve rt drv db req /\
  sent (w_res (serve rt drv db req)) <>
    Some (Json (VObj {["error" := VStr "Internal Server Error"]})).
Proof.
  split; [reflexivity|].
  destruct (route_cases req) as [[sql H]|[(rules & message & H)|H]].
  - rewrite (serve_read _ _ _ _ _ H).
    destruct (connect drv db) as [e|].
    + rewrite abandoned_sent. destruct rt as [[] []]; discriminate.
    + destruct (exec drv sql [] db) as [[e|rows] d].
      * rewrite abandoned_sent. destruct rt as [[] []]; discriminate.
      * discriminate.
  - rewrite (serve_write _ _ _ _ _ _ H).
    destruct (violations req) as [|e errors]; [discriminate|].
    unfold rejected. cbn [w_res sent]. intros Heq.
    apply (errors_key_is_not_error_key
             (VArr (error_object <$> e :: errors))
             (VStr "Internal Server Error")).
    congruence.
  - rewrite (serve_no_route _ _ _ _ H). destruct req as [m p body].
    discriminate.
Qed.

(** ** The handlers as functions *)

(** X6. A read handler never calls [next]: in whatever state it starts and
    however the driver behaves, it either answers and returns, or throws
    the [ReferenceError] of its own [catch] block. *)
Theorem read_handler_never_calls_next drv sql req w :
  (read_handler drv sql req w).1 = inr Ended \/
  (read_handler drv sql req w).1 = inl (ReferenceError "next").
Proof.
  unfold read_handler, try_catch.
  destruct (read_try drv sql w) as [[e|s] w'] eqn:Htry.
  - right. reflexivity.
  - left. simpl. f_equal.
    unfold read_try, mbind, M_bind, bind in Htry.
    destruct (pool_getConnection drv w) as [[?|conn] w1]; [discriminate|].
    destruct (conn_query drv conn sql w1) as [[?|rows] w2]; [discriminate|].
    destruct (conn_release conn w2) as [[?|?] w3]; [discriminate|].
    destruct (res_setHeader _ _ w3) as [[?|?] w4]; [discriminate|].
    destruct (res_json _ w4) as [[?|?] w5]; [discriminate|].
    by injection Htry as <- _.
Qed.

(** X7. A write handler never throws: if [res.send] fails because the
    response has already gone out, its [catch] block hands the error to
    [next]; otherwise it answers 200 with its message.  It touches neither
    the database nor the pool. *)
Theorem write_handler_never_throws message req w :
  (write_handler message req w).1 =
    match sent (w_res w) with
    | None => inr Ended
    | Some _ => inr (NextErr HeadersSent)
    end /\
  w_db (write_handler message req w).2 = w_db w /\
  filter is_acquire (w_trace (write_handler message req w).2) =
    filter is_acquire (w_trace w) /\
  filter is_query (w_trace (write_handler message req w).2) =
    filter is_query (w_trace w).
Proof.
  unfold write_handler, try_catch, write_try, res_send, write,
    mbind, M_bind, bind.
  destruct (sent (w_res w)) as [p|]; simpl.
  - rewrite !filter_app. simpl. rewrite !app_nil_r. by repeat split.
  - by repeat split.
Qed.

(** ** What a request's body can and cannot do *)

Lemma serve_errors rt drv db req :
  w_errors (serve rt drv db req) = violations req.
Proof.
  destruct (route_cases req) as [[sql H]|[(rules & message & H)|H]].
  - unfold violations, rules_of. rewrite (serve_read _ _ _ _ _ H), H.
    destruct (connect drv db) as [e|].
    + by rewrite abandoned_errors.
    + destruct (exec drv sql [] db) as [[e|rows] d];
        [by rewrite abandoned_errors | reflexivity].
  - rewrite (serve_write _ _ _ _ _ _ H).
    destruct (violations req); reflexivity.
  - unfold violations, rules_of.
    rewrite (serve_no_route _ _ _ _ H), final_handler_errors, H. reflexivity.
Qed.

Lemma reported_broken rt drv db req :
  reported (serve rt drv db req) = broken (req_body req) (rules_of req).
Proof.
  unfold reported. rewrite serve_errors. unfold violations.
  induction (broken (req_body req) (rules_of req)) as [|f l IH];
    [reflexivity|].
  rewrite !fmap_cons. f_equal. exact IH.
Qed.

Lemma reported_iff_broken rt drv db req field :
  field ∈ reported (serve rt drv db req) <->
  field ∈ rules_of req /\ is_string (get_field field (req_body req)) = false.
Proof.
  rewrite reported_broken. unfold broken. rewrite list_elem_of_filter. tauto.
Qed.

(** X8. For every request, the fields listed in the validation errors are
    exactly the declared fields of its route that do not hold a string:
    a declared field that holds a string is never listed, a field that is
    not declared is never listed, and a broken one always is. *)
Theorem reported_fields_are_the_broken_rules rt drv db req field :
  field ∈ reported (serve rt drv db req) <->
  field ∈ rules_of req /\ is_string (get_field field (req_body req)) = false.
Proof. apply reported_iff_broken. Qed.

Lemma broken_not_object body rules :
  is_object body = false -> broken body rules = rules.
Proof.
  intros Hobj. unfold broken.
  induction rules as [|field rules IH]; [reflexivity|].
  rewrite filter_cons, decide_True; [by rewrite IH|].
  destruct body; try reflexivity. discriminate.
Qed.

(** X9. A request to POST /agents, PATCH /agents/:id or PUT /agents/:id
    whose body is not an object (nothing parsed it, or it is null, a
    number, a string, an array) is rejected with 400, and every declared
    field is listed, in declaration order.  No collaborator is called. *)
Theorem body_that_is_no_object_breaks_every_rule rt drv db req :
  rules_of req <> [] ->
  is_object (req_body req) = false ->
  statusCode (w_res (serve rt drv db req)) = 400 /\
  reported (serve rt drv db req) = rules_of req /\
  w_trace (serve rt drv db req) = [].
Proof.
  intros Hrules Hobj.
  assert (Hrep : reported (serve rt drv db req) = rules_of req)
    by (rewrite reported_broken; by apply broken_not_object).
  destruct (rules_of req) as [|field rules] eqn:Hr; [done|].
  assert (Hin : field ∈ rules_of req) by (rewrite Hr; left).
  pose proof (rules_only_on_write_routes _ _ Hin) as Hwrite.
  split; [|split; [exact Hrep | by apply serve_write_trace]].
  destruct (is_write_route _ Hwrite) as (rs & message & Hroute).
  rewrite (serve_write _ _ _ _ _ _ Hroute).
  unfold reported in Hrep. rewrite serve_errors in Hrep.
  destruct (violations req); [discriminate | reflexivity].
Qed.

Lemma violations_agree m p b1 b2 :
  Forall (fun field => get_field field b1 = get_field field b2)
         (rules_of (mkRequest m p b1)) ->
  violations (mkRequest m p b1) = violations (mkRequest m p b2).
Proof.
  unfold violations, rules_of, route_of. simpl.
  generalize (match classify m p with
              | WriteRoute rules _ => rules
              | _ => []
              end).
  intros rules. induction 1 as [|field rules Heq _ IH]; [reflexivity|].
  unfold broken in *. rewrite !filter_cons, <- Heq.
  destruct (decide (is_string (get_field field b1) = false)).
  - rewrite !fmap_cons, IH. unfold violation. by rewrite Heq.
  - exact IH.
Qed.

(** X10. The body of a request matters only through the declared fields of
    its route: two requests with the same method and path whose bodies
    agree on those fields end in the same world.  In particular the read
    routes and DELETE, which declare no field, ignore the body
    altogether. *)
Theorem undeclared_fields_are_ignored rt drv db m p b1 b2 :
  Forall (fun field => get_field field b1 = get_field field b2)
         (rules_of (mkRequest m p b1)) ->
  serve rt drv db (mkRequest m p b1) = serve rt drv db (mkRequest m p b2).
Proof.
  intros Hagree.
  destruct (route_cases (mkRequest m p b1))
    as [[sql H]|[(rules & message & H)|H]].
  - rewrite (serve_read _ _ _ (mkRequest m p b1) _ H),
            (serve_read _ _ _ (mkRequest m p b2) _ H).
    reflexivity.
  - rewrite (serve_write _ _ _ (mkRequest m p b1) _ _ H),
            (serve_write _ _ _ (mkRequest m p b2) _ _ H).
    by rewrite (violations_agree _ _ _ _ Hagree).
  - rewrite (serve_no_route _ _ _ (mkRequest m p b1) H),
            (serve_no_route _ _ _ (mkRequest m p b2) H).
    reflexivity.
Qed.

(** X11. The answer of a write route does not depend on the database, on
    the driver or on the Express version: the same request gets the same
    status, headers and body whether the database is up, down or
    different. *)
Theorem write_answer_ignores_the_database rt1 rt2 drv1 drv2 db1 db2 req :
  is_write req = true ->
  w_res (serve rt1 drv1 db1 req) = w_res (serve rt2 drv2 db2 req).
Proof.
  intros (rules & message & Hroute)%is_write_route.
  rewrite !(serve_write _ _ _ _ _ _ Hroute).
  destruct (violations req); reflexivity.
Qed.

(** ** Which status a request gets *)

Lemma abandoned_status rt req d trace e :
  statusCode (w_res (abandoned rt req (caught d trace e))) =
    match express rt with
    | Express4 => 200
    | Express5 => 500
    end.
Proof. unfold abandoned. destruct rt as [[] []]; reflexivity. Qed.

(** X12. Among the requests Express hands to the routes of server.js
    (one of the five methods on one of the five path shapes, the id a
    non-empty decoded segment), a request is answered 400 exactly when
    its route declares a field that does not hold a string in the body.
    A URL Express cannot decode is refused by Express itself before any
    function of server.js is called, and is no request in this sense. *)
Theorem bad_request_iff_a_rule_is_broken rt drv db req :
  routable (req_path req) = true ->
  (statusCode (w_res (serve rt drv db req)) = 400 <->
   exists field,
     field ∈ rules_of req /\ is_string (get_field field (req_body req)) = false).
Proof.
  intros _.
  assert (Hiff : (exists field, field ∈ rules_of req /\
                    is_string (get_field field (req_body req)) = false)
                 <-> violations req <> []).
  { rewrite <- (serve_errors rt drv db req). split.
    - intros [field Hf].
      apply (reported_iff_broken rt drv db) in Hf.
      unfold reported in Hf. intros Hnil. rewrite Hnil in Hf. inversion Hf.
    - intros Hne.
      destruct (w_errors (serve rt drv db req)) as [|e errors] eqn:He; [done|].
      exists (ve_path e).
      apply (reported_iff_broken rt drv db).
      unfold reported. rewrite He. left. }
  rewrite Hiff.
  destruct (route_cases req) as [[sql H]|[(rules & message & H)|H]].
  - assert (Hv : violations req = [])
      by (unfold violations, rules_of; by rewrite H).
    rewrite Hv, (serve_read _ _ _ _ _ H).
    destruct (connect drv db) as [e|].
    + rewrite abandoned_status. by destruct (express rt).
    + destruct (exec drv sql [] db) as [[e|rows] d];
        [rewrite abandoned_status; by destruct (express rt) | done].
  - rewrite (serve_write _ _ _ _ _ _ H).
    destruct (violations req); done.
  - assert (Hv : violations req = [])
      by (unfold violations, rules_of; by rewrite H).
    rewrite Hv, (serve_no_route _ _ _ _ H). done.
Qed.

(** X13. Among the requests Express hands to the routes of server.js
    (one of the five methods on one of the five path shapes, the id a
    non-empty decoded segment), a method and path outside the eight
    declared routes (reading one agent with GET /agents/:id, posting to
    /companies, deleting /agents, ...) is answered 404 by Express's final
    handler, with no call to the pool and the database as it was; a
    request to a declared route is never answered 404. *)
Theorem undeclared_routes_are_not_found rt drv db req :
  routable (req_path req) = true ->
  match route_of req with
  | NoRoute =>
      statusCode (w_res (serve rt drv db req)) = 404 /\
      is_Some (sent (w_res (serve rt drv db req))) /\
      w_trace (serve rt drv db req) = [] /\
      w_db (serve rt drv db req) = db
  | _ => statusCode (w_res (serve rt drv db req)) <> 404
  end.
Proof.
  intros _.
  destruct (route_cases req) as [[sql H]|[(rules & message & H)|H]]; rewrite H.
  - rewrite (serve_read _ _ _ _ _ H).
    destruct (connect drv db) as [e|].
    + rewrite abandoned_status. by destruct (express rt).
    + destruct (exec drv sql [] db) as [[e|rows] d];
        [rewrite abandoned_status; by destruct (express rt) | done].
  - rewrite (serve_write _ _ _ _ _ _ H). destruct (violations req); done.
  - rewrite (serve_no_route _ _ _ _ H). destruct req as [m p body].
    repeat split. simpl. eauto.
Qed.

(** X14. Every answer written by the handlers of server.js (a JSON body or
    a text message) carries the header [Access-Control-Allow-Origin: *]:
    [cors()] is registered before every route. *)
Theorem answers_carry_the_cors_header rt drv db req :
  match sent (w_res (serve rt drv db req)) with
  | Some (Json _) | Some (Text _) =>
      headers (w_res (serve rt drv db req)) !! "Access-Control-Allow-Origin"
        = Some "*"
  | _ => True
  end.
Proof.
  destruct (route_cases req) as [[sql H]|[(rules & message & H)|H]].
  - rewrite (serve_read _ _ _ _ _ H).
    destruct (connect drv db) as [e|].
    + rewrite abandoned_sent. by destruct (express rt).
    + destruct (exec drv sql [] db) as [[e|rows] d];
        [rewrite abandoned_sent; by destruct (express rt) | reflexivity].
  - rewrite (serve_write _ _ _ _ _ _ H). destruct (violations req); reflexivity.
  - rewrite (serve_no_route _ _ _ _ H). exact I.
Qed.

(** X15. A request is left without any answer exactly when it is a read
    that fails, at the pool or at the query, under Express 4; it is
    answered 500 exactly when it is such a read under Express 5.  No
    other request hangs, and no other request gets a 500. *)
Theorem failed_reads_hang_or_get_the_final_handler rt drv db req :
  (sent (w_res (serve rt drv db req)) = None <->
     express rt = Express4 /\ read_fails drv db req = true) /\
  (statusCode (w_res (serve rt drv db req)) = 500 <->
     express rt = Express5 /\ read_fails drv db req = true).
Proof.
  unfold read_fails.
  destruct (route_cases req) as [[sql H]|[(rules & message & H)|H]]; rewrite H.
  - rewrite (serve_read _ _ _ _ _ H).
    destruct (connect drv db) as [e|].
    + rewrite abandoned_sent, abandoned_status.
      destruct (express rt); split; split; try done; by intros [? ?].
    + destruct (exec drv sql [] db) as [[e|rows] d].
      * rewrite abandoned_sent, abandoned_status.
        destruct (express rt); split; split; try done; by intros [? ?].
      * split; split; try done; by intros [? ?].
  - rewrite (serve_write _ _ _ _ _ _ H).
    destruct (violations req); split; split; try done; by intros [? ?].
  - rewrite (serve_no_route _ _ _ _ H).
    split; split; try done; by intros [? ?].
Qed.

(** ** Instances of the further properties *)

(** X1 at GET /agents on the sample database: both agents, in table
    order. *)
Lemma read_success_returns_rows_witness :
  route_of get_agents_request = ReadRoute "SELECT * FROM agents" /\
  connect sample_driver sample_db = None /\
  exec sample_driver "SELECT * FROM agents" [] sample_db =
    (inr [agent_row "A001" "Subbarao"; agent_row "A002" "Mukesh"], sample_db) /\
  sent (w_res (serve dev4 sample_driver sample_db get_agents_request)) =
    Some (Json (VArr [VObj (agent_row "A001" "Subbarao");
                      VObj (agent_row "A002" "Mukesh")])) /\
  released (serve dev4 sample_driver sample_db get_agents_request) = 1.
Proof.
  assert (Hroute : route_of get_agents_request = ReadRoute "SELECT * FROM agents")
    by reflexivity.
  assert (Hc : connect sample_driver sample_db = None) by reflexivity.
  assert (Hq : exec sample_driver "SELECT * FROM agents" [] sample_db =
                 (inr [agent_row "A001" "Subbarao"; agent_row "A002" "Mukesh"],
                  sample_db)) by reflexivity.
  destruct (read_success_returns_rows dev4 sample_driver sample_db
              get_agents_request _ _ _ Hroute Hc Hq)
    as (_ & _ & Hsent & _ & _ & Hrel & _).
  split; [exact Hroute|]. split; [exact Hc|]. split; [exact Hq|].
  split; [exact Hsent | exact Hrel].
Defined.

(** X2 at GET /agents with the database server down. *)
Lemma read_refused_connection_touches_nothing_witness :
  route_of get_agents_request = ReadRoute "SELECT * FROM agents" /\
  connect offline_driver sample_db =
    Some (SqlError "connect ECONNREFUSED 127.0.0.1:3306") /\
  acquired (serve dev4 offline_driver sample_db get_agents_request) = 0 /\
  w_db (serve dev4 offline_driver sample_db get_agents_request) = sample_db.
Proof.
  assert (Hroute : route_of get_agents_request = ReadRoute "SELECT * FROM agents")
    by reflexivity.
  assert (Hc : connect offline_driver sample_db =
                 Some (SqlError "connect ECONNREFUSED 127.0.0.1:3306"))
    by reflexivity.
  destruct (read_refused_connection_touches_nothing dev4 offline_driver
              sample_db get_agents_request _ _ Hroute Hc)
    as (_ & Hacq & _ & _ & Hdb).
  split; [exact Hroute|]. split; [exact Hc|]. split; [exact Hacq | exact Hdb].
Defined.

(** X9 at PUT /agents/7 with an unparsed body. *)
Lemma body_that_is_no_object_breaks_every_rule_witness :
  rules_of put_unparsed <> [] /\
  is_object (req_body put_unparsed) = false /\
  statusCode (w_res (serve dev4 sample_driver sample_db put_unparsed)) = 400 /\
  reported (serve dev4 sample_driver sample_db put_unparsed) = ["AGENT_NAME"].
Proof.
  assert (Hrules : rules_of put_unparsed <> []) by discriminate.
  assert (Hobj : is_object (req_body put_unparsed) = false) by reflexivity.
  destruct (body_that_is_no_object_breaks_every_rule dev4 sample_driver
              sample_db put_unparsed Hrules Hobj) as (Hstatus & Hrep & _).
  split; [exact Hrules|]. split; [exact Hobj|].
  split; [exact Hstatus | exact Hrep].
Defined.

(** X10 at POST /agents with and without a COUNTRY field. *)
Lemma undeclared_fields_are_ignored_witness :
  Forall (fun field => get_field field (req_body post_complete) =
                       get_field field body_with_country)
         (rules_of (mkRequest POST Agents (req_body post_complete))) /\
  serve dev4 sample_driver sample_db (mkRequest POST Agents (req_body post_complete)) =
  serve dev4 sample_driver sample_db (mkRequest POST Agents body_with_country).
Proof.
  assert (Hagree :
    Forall (fun field => get_field field (req_body post_complete) =
                         get_field field body_with_country)
           (rules_of (mkRequest POST Agents (req_body post_complete))))
    by (repeat constructor).
  split; [exact Hagree|].
  exact (undeclared_fields_are_ignored dev4 sample_driver sample_db POST Agents
           _ _ Hagree).
Defined.

(** X11 at POST /agents with the database up and with it down. *)
Lemma write_answer_ignores_the_database_witness :
  is_write post_complete = true /\
  w_res (serve dev4 sample_driver sample_db post_complete) =
  w_res (serve dev5 offline_driver empty_agents_db post_complete).
Proof.
  assert (Hwrite : is_write post_complete = true) by reflexivity.
  split; [exact Hwrite|].
  exact (write_answer_ignores_the_database dev4 dev5 sample_driver
           offline_driver sample_db empty_agents_db post_complete Hwrite).
Defined.

(** ** [validateRequest] and the read handler in any state *)

(** X16. [validateRequest] lets a request through exactly when its
    validation context is empty, in whatever state it is called; it never
    touches the database, the pool or the validation context itself. *)
Theorem validateRequest_passes_iff_no_error req w :
  ((validateRequest req w).1 = inr Next <-> w_errors w = []) /\
  w_db (validateRequest req w).2 = w_db w /\
  w_trace (validateRequest req w).2 = w_trace w /\
  w_errors (validateRequest req w).2 = w_errors w.
Proof.
  unfold validateRequest, get_world, res_status, res_json, write, modify,
    mbind, M_bind, bind.
  destruct (w_errors w) as [|e errors] eqn:He; simpl.
  - by repeat split.
  - destruct (sent (w_res w)); simpl; rewrite ?He; by repeat split.
Qed.

(** X17. In a read handler the connection goes back to the pool before
    anything is written to the response: whenever the connection is
    granted and the query resolves, the handler's calls are acquire,
    query, release of that same connection, also when writing the
    response then fails because it has already gone out. *)
Theorem read_handler_releases_before_answering drv sql req w rows d :
  connect drv (w_db w) = None ->
  exec drv sql [] (w_db w) = (inr rows, d) ->
  w_trace (read_handler drv sql req w).2 =
    (w_trace w
     ++ [EvAcquire (acquired w); EvQuery sql []; EvRelease (acquired w)]
     ++ match sent (w_res w) with
        | None => []
        | Some _ => [EvCatch HeadersSent]
        end)%list /\
  w_db (read_handler drv sql req w).2 = d.
Proof.
  intros Hc Hq.
  unfold read_handler, try_catch, read_try, mbind, M_bind, bind,
    pool_getConnection, conn_query, conn_release, res_setHeader, res_json,
    write, modify.
  rewrite Hc. cbn [w_db emit]. rewrite Hq. cbn [w_res set_db emit sent].
  destruct (sent (w_res w)) as [p|] eqn:Hs;
    cbn [w_res set_res set_db emit sent w_trace w_db fst snd].
  - (* the response had gone out: [res.setHeader] throws after the release *)
    unfold call_next. rewrite next_unbound_in_read_handlers. unfold throw.
    unfold emit, set_db. cbn [snd w_trace w_db].
    rewrite <- !app_assoc. by split.
  - unfold mret, M_ret, ret, emit, set_db, set_res.
    cbn [snd w_trace w_db].
    rewrite <- !app_assoc. by split.
Qed.

(** X17 at [cors_world], where the route of a request starts. *)
Lemma read_handler_releases_before_answering_witness :
  connect sample_driver (w_db (cors_world sample_db)) = None /\
  exec sample_driver "SELECT * FROM orders" [] (w_db (cors_world sample_db)) =
    (inr [], sample_db) /\
  w_trace (read_handler sample_driver "SELECT * FROM orders"
             (mkRequest GET Orders VUndefined) (cors_world sample_db)).2 =
    [EvAcquire 0; EvQuery "SELECT * FROM orders" []; EvRelease 0].
Proof.
  assert (Hc : connect sample_driver (w_db (cors_world sample_db)) = None)
    by reflexivity.
  assert (Hq : exec sample_driver "SELECT * FROM orders" []
                 (w_db (cors_world sample_db)) = (inr [], sample_db))
    by reflexivity.
  destruct (read_handler_releases_before_answering sample_driver
              "SELECT * FROM orders" (mkRequest GET Orders VUndefined)
              (cors_world sample_db) [] sample_db Hc Hq) as [Htrace _].
  split; [exact Hc|]. split; [exact Hq|]. exact Htrace.
Defined.

(** X12 at PUT /agents/7 with an unparsed body: a routed request, 400,
    and AGENT_NAME is the broken rule. *)
Lemma bad_request_iff_a_rule_is_broken_witness :
  routable (req_path put_unparsed) = true /\
  statusCode (w_res (serve dev4 sample_driver sample_db put_unparsed)) = 400 /\
  exists field,
    field ∈ rules_of put_unparsed /\
    is_string (get_field field (req_body put_unparsed)) = false.
Proof.
  assert (Hroutable : routable (req_path put_unparsed) = true) by reflexivity.
  assert (Hbroken : exists field,
            field ∈ rules_of put_unparsed /\
            is_string (get_field field (req_body put_unparsed)) = false).
  { exists "AGENT_NAME". split; [left | reflexivity]. }
  split; [exact Hroutable|]. split; [|exact Hbroken].
  exact (proj2 (bad_request_iff_a_rule_is_broken dev4 sample_driver sample_db
                  put_unparsed Hroutable) Hbroken).
Defined.

(** X13 at GET /agents/7, which server.js does not declare. *)
Lemma undeclared_routes_are_not_found_witness :
  routable (req_path (mkRequest GET (AgentsId "7") VUndefined)) = true /\
  statusCode (w_res (serve dev4 sample_driver sample_db
                       (mkRequest GET (AgentsId "7") VUndefined))) = 404 /\
  w_trace (serve dev4 sample_driver sample_db
             (mkRequest GET (AgentsId "7") VUndefined)) = [].
Proof.
  assert (Hroutable :
    routable (req_path (mkRequest GET (AgentsId "7") VUndefined)) = true)
    by reflexivity.
  destruct (undeclared_routes_are_not_found dev4 sample_driver sample_db
              (mkRequest GET (AgentsId "7") VUndefined) Hroutable)
    as (Hstatus & _ & Htrace & _).
  split; [exact Hroutable|]. split; [exact Hstatus | exact Htrace].
Defined.
